(** * Airbnb listings dashboard: the filter-driven update of [app.py]

    A shallow embedding of the callback [update_num_listings] and of the two
    figure builders [make_hist] and [make_mapchart], together with the
    pandas / Python primitives they are written with.

    Conventions of the embedding.
    - A data frame is the list of its rows, in index order; a column is the
      list obtained by projecting one field.
    - A float64 is an exact rational, an infinity or NaN ([num]); rounding to
      binary64, overflow and the sign of zero are not represented.
    - A Python exception is the [Raise] branch of [result]; statements are
      sequenced in source order, so the first exception wins. *)

From Stdlib Require Import List String Ascii ZArith QArith Qround Qabs Bool Lia
  DecimalString.
Import ListNotations.

Local Open Scope string_scope.
Local Open Scope Z_scope.

(** ** Exceptions *)

Inductive exn : Type :=
| ZeroDivisionError
| ValueError.

Inductive result (A : Type) : Type :=
| Ok (a : A)
| Raise (e : exn).

Arguments Ok {A} a.
Arguments Raise {A} e.

Definition bind {A B : Type} (m : result A) (k : A -> result B) : result B :=
  match m with
  | Ok a => k a
  | Raise e => Raise e
  end.

Notation "x <- m ;; k" := (bind m (fun x => k))
  (at level 61, m at next level, right associativity).

(** [mapM f xs] evaluates [f] on the elements from left to right and stops at
    the first exception, as a vectorised library call that raises does. *)
Fixpoint mapM {A B : Type} (f : A -> result B) (xs : list A) : result (list B) :=
  match xs with
  | [] => Ok []
  | x :: xs' =>
      y <- f x ;;
      ys <- mapM f xs' ;;
      Ok (y :: ys)
  end.

(** ** Floating-point values *)

Inductive num : Type :=
| NaN
| PInf
| NInf
| Fin (q : Q).

Definition Qsgn (q : Q) : Z := Z.sgn (Qnum q).

Definition fadd (x y : num) : num :=
  match x, y with
  | NaN, _ | _, NaN => NaN
  | PInf, NInf | NInf, PInf => NaN
  | PInf, _ | _, PInf => PInf
  | NInf, _ | _, NInf => NInf
  | Fin a, Fin b => Fin (a + b)
  end.

Definition inf_of_sign (s : Z) : num :=
  match s with
  | Z0 => NaN
  | Zpos _ => PInf
  | Zneg _ => NInf
  end.

Definition sign_of (x : num) : Z :=
  match x with
  | NaN => 0
  | PInf => 1
  | NInf => -1
  | Fin q => Qsgn q
  end.

Definition fmul (x y : num) : num :=
  match x, y with
  | NaN, _ | _, NaN => NaN
  | Fin a, Fin b => Fin (a * b)
  | _, _ => inf_of_sign (sign_of x * sign_of y)
  end.

(** Division of numpy floats: a zero divisor gives an infinity or NaN, it does
    not raise. *)
Definition fdiv (x y : num) : num :=
  match x, y with
  | NaN, _ | _, NaN => NaN
  | Fin a, Fin b =>
      if Z.eqb (Qnum b) 0 then inf_of_sign (Qsgn a) else Fin (a / b)
  | Fin _, _ => Fin 0
  | _, Fin b => inf_of_sign (sign_of x * (if Z.ltb (Qnum b) 0 then -1 else 1))
  | _, _ => NaN
  end.

Definition isna (x : num) : bool :=
  match x with
  | NaN => true
  | _ => false
  end.

(** [Series.dropna] *)
Definition dropna (xs : list num) : list num :=
  filter (fun x => negb (isna x)) xs.

Definition fsum (xs : list num) : num :=
  fold_left fadd xs (Fin 0).

(** [Series.mean] (skipna): NaN entries are skipped; the mean of no value is
    NaN. *)
Definition mean (xs : list num) : num :=
  match dropna xs with
  | [] => NaN
  | ys => fdiv (fsum ys) (Fin (inject_Z (Z.of_nat (List.length ys))))
  end.

(** Python [a / b] on two [int]s. *)
Definition py_truediv (a b : nat) : result Q :=
  match b with
  | O => Raise ZeroDivisionError
  | S _ => Ok (Z.of_nat a # Pos.of_nat b)
  end.

(** ** Number formatting: [str.format] with [f] and [%] presentation *)

Definition round_half_even (q : Q) : Z :=
  let n := Qnum q in
  let d := Zpos (Qden q) in
  let fl := n / d in
  match (2 * (n mod d)) ?= d with
  | Lt => fl
  | Gt => fl + 1
  | Eq => if Z.even fl then fl else fl + 1
  end.

Definition string_of_nonneg (z : Z) : string :=
  NilZero.string_of_uint (N.to_uint (Z.to_N z)).

Fixpoint zeros (n : nat) : string :=
  match n with
  | O => ""
  | S n' => String "0" (zeros n')
  end.

Definition pad_zeros (width : nat) (s : string) : string :=
  zeros (width - String.length s) ++ s.

(** ["{:0.<decimals>f}".format(x)] *)
Definition format_f (decimals : nat) (x : num) : string :=
  match x with
  | NaN => "nan"
  | PInf => "inf"
  | NInf => "-inf"
  | Fin q =>
      let scale := 10 ^ Z.of_nat decimals in
      let m := round_half_even (Qabs q * inject_Z scale) in
      let sign := if Z.ltb (Qnum q) 0 then "-" else "" in
      let frac :=
        match decimals with
        | O => ""
        | _ => "." ++ pad_zeros decimals (string_of_nonneg (m mod scale))
        end in
      sign ++ string_of_nonneg (m / scale) ++ frac
  end.

(** ["{:0.<decimals>%}".format(x)] *)
Definition format_pct (decimals : nat) (x : num) : string :=
  format_f decimals (fmul x (Fin 100)) ++ "%".

(** [round(series, decimals)] on one value. *)
Definition round_to (decimals : nat) (x : num) : num :=
  match x with
  | Fin q =>
      let scale := inject_Z (10 ^ Z.of_nat decimals) in
      Fin (inject_Z (round_half_even (q * scale)) / scale)
  | _ => x
  end.

(** ** String methods *)

Fixpoint mem_char (c : ascii) (chars : string) : bool :=
  match chars with
  | EmptyString => false
  | String d rest => Ascii.eqb c d || mem_char c rest
  end.

(** [s.replace(c, "")] for a one-character pattern: every occurrence goes. *)
Fixpoint remove_char (c : ascii) (s : string) : string :=
  match s with
  | EmptyString => EmptyString
  | String d rest =>
      if Ascii.eqb d c then remove_char c rest else String d (remove_char c rest)
  end.

(** [s.rstrip(chars)]: [chars] is a set of characters, and every trailing
    character that belongs to it is removed. *)
Fixpoint rstrip (chars : string) (s : string) : string :=
  match s with
  | EmptyString => EmptyString
  | String c rest =>
      match rstrip chars rest with
      | EmptyString => if mem_char c chars then EmptyString else String c EmptyString
      | kept => String c kept
      end
  end.

Definition lower_char (c : ascii) : ascii :=
  let n := nat_of_ascii c in
  if (Nat.leb 65 n && Nat.leb n 90)%bool then ascii_of_nat (n + 32) else c.

Fixpoint lower (s : string) : string :=
  match s with
  | EmptyString => EmptyString
  | String c rest => String (lower_char c) (lower rest)
  end.

(** ** [pd.to_numeric] on one string

    The library reads: blanks, an optional sign, digits with an optional
    fraction (at least one digit in all), an optional exponent, blanks; failing
    that, a spelling of infinity; the empty string is NaN; anything else raises
    [ValueError]. *)

Definition is_digit (c : ascii) : bool :=
  let n := nat_of_ascii c in (Nat.leb 48 n && Nat.leb n 57)%bool.

Definition digit_val (c : ascii) : Z := Z.of_nat (nat_of_ascii c) - 48.

Definition is_space (c : ascii) : bool :=
  let n := nat_of_ascii c in
  (Nat.eqb n 32 || (Nat.leb 9 n && Nat.leb n 13))%bool.

Fixpoint skip_spaces (s : string) : string :=
  match s with
  | String c rest => if is_space c then skip_spaces rest else s
  | EmptyString => s
  end.

(** Reads a run of digits: the accumulated value, how many were read, and the
    rest of the input. *)
Fixpoint read_digits (s : string) (acc : Z) (count : nat) : Z * nat * string :=
  match s with
  | String c rest =>
      if is_digit c then read_digits rest (10 * acc + digit_val c) (S count)
      else (acc, count, s)
  | EmptyString => (acc, count, s)
  end.

Definition read_sign (s : string) : bool * string :=
  match s with
  | String "-" rest => (true, rest)
  | String "+" rest => (false, rest)
  | _ => (false, s)
  end.

(** An exponent without digits is not consumed. *)
Definition read_exponent (s : string) : Z * string :=
  match s with
  | String c rest =>
      if (Ascii.eqb c "e" || Ascii.eqb c "E")%bool then
        let '(neg, after_sign) := read_sign rest in
        let '(n, count, after) := read_digits after_sign 0 O in
        match count with
        | O => (0, s)
        | _ => (if neg then - n else n, after)
        end
      else (0, s)
  | EmptyString => (0, s)
  end.

Definition pow10 (e : Z) : Q :=
  match e with
  | Zneg p => 1 # (10 ^ p)
  | _ => inject_Z (10 ^ e)
  end.

Definition to_double (s : string) : option Q :=
  let '(neg, s1) := read_sign (skip_spaces s) in
  let '(ip, n1, s2) := read_digits s1 0 O in
  let '(m, n2, s3) :=
    match s2 with
    | String "." rest => read_digits rest ip O
    | _ => (ip, O, s2)
    end in
  match (n1 + n2)%nat with
  | O => None
  | _ =>
      let '(e, s4) := read_exponent s3 in
      match skip_spaces s4 with
      | EmptyString =>
          let v := (inject_Z m * pow10 (e - Z.of_nat n2))%Q in
          Some (if neg then Qopp v else v)
      | _ => None
      end
  end.

Definition infinity_spelling (s : string) : option num :=
  let t := lower s in
  if (String.eqb t "inf" || String.eqb t "+inf" || String.eqb t "infinity"
      || String.eqb t "+infinity")%bool then Some PInf
  else if (String.eqb t "-inf" || String.eqb t "-infinity")%bool then Some NInf
  else None.

Definition to_numeric_str (s : string) : result num :=
  match s with
  | EmptyString => Ok NaN
  | _ =>
      match to_double s with
      | Some q => Ok (Fin q)
      | None =>
          match infinity_spelling s with
          | Some v => Ok v
          | None => Raise ValueError
          end
      end
  end.

(** A missing cell stays missing through the [.str] methods and through
    [pd.to_numeric]. *)
Definition to_numeric_cell (cell : option string) : result num :=
  match cell with
  | None => Ok NaN
  | Some s => to_numeric_str s
  end.

(** [pd.to_numeric(series)] with the default [errors="raise"]. *)
Definition to_numeric (cells : list (option string)) : result (list num) :=
  mapM to_numeric_cell cells.

(** ** The listing table *)

(** One row of [listings.csv], with the columns the program reads.  Float
    columns are [num] (NaN is the missing value); a missing [price] cell is
    [None]. *)
Record Listing : Type := {
  name : string;
  host_name : string;
  host_since : string;
  price : option string;
  accommodates : Z;
  availability_365 : Z;
  room_type : string;
  latitude : num;
  longitude : num;
  minimum_nights_avg_ntm : num;
  reviews_per_month : num;
  number_of_reviews : Z;
  neighbourhood_cleansed : string
}.

Definition DataFrame : Type := list Listing.

(** [df[df[column] == value]] on a string column. *)
Definition where_eq (column : Listing -> string) (value : string) (df : DataFrame)
  : DataFrame :=
  filter (fun row => String.eqb (column row) value) df.

(** [Series.unique]: the distinct values, in order of first appearance. *)
Fixpoint unique (xs : list string) : list string :=
  match xs with
  | [] => []
  | x :: rest => x :: filter (fun y => negb (String.eqb y x)) (unique rest)
  end.

(** [neighbourhoods = listings["neighbourhood_cleansed"].unique()] *)
Definition neighbourhoods (listings : DataFrame) : list string :=
  unique (map neighbourhood_cleansed listings).

(** percentage of guests who DON'T leave a review *)
Definition guests_not_leaving_review : Q := 0.65.

(** ** [make_hist] *)

Record HistTrace : Type := {
  h_y : list string;
  h_marker_color : string;
  h_name : string;
  h_showlegend : bool
}.

Record HistFigure : Type := {
  h_traces : list HistTrace;
  h_yaxis_visible : bool;
  h_yaxis_showticklabels : bool
}.

Definition make_hist (df : DataFrame) : HistFigure :=
  let df_entire_home := map room_type (where_eq room_type "Entire home/apt" df) in
  let df_private_room := map room_type (where_eq room_type "Private room" df) in
  let df_shared_room := map room_type (where_eq room_type "Shared room" df) in
  {| h_traces :=
       [ {| h_y := df_shared_room; h_marker_color := "blue";
            h_name := "Shared room"; h_showlegend := false |};
         {| h_y := df_private_room; h_marker_color := "green";
            h_name := "Private room"; h_showlegend := false |};
         {| h_y := df_entire_home; h_marker_color := "red";
            h_name := "Entire home/apt"; h_showlegend := false |} ];
     h_yaxis_visible := false;
     h_yaxis_showticklabels := false |}.

(** ** [make_mapchart] *)

(** One entry of [customdata]: name, host name, host since, price,
    accommodates, yearly availability in percent. *)
Definition CustomDatum : Type :=
  (string * string * string * option string * Z * num)%type.

Definition make_hovertemplate (customdata : list CustomDatum) : string :=
  "<b>Apartment: %{customdata[0]}</b><br><b>Host name: </b><b>%{customdata[1]}</b><br><b>Host Since:
            </b>%{customdata[2]}<br><b>Price: </b>%{customdata[3]} / night<br><b>Person to accommodate: </b>%{customdata[4]}
            <br><b>Yearly Availability: </b>%{customdata[5]} days/year".

Record MapTrace : Type := {
  t_type : string;
  t_lat : list num;
  t_lon : list num;
  t_marker_color : string;
  t_customdata : list CustomDatum;
  t_name : string;
  t_hovertemplate : string
}.

Record MapLayout : Type := {
  l_style : string;
  l_uirevision : bool;
  l_zoom : Z;
  l_center_lon : num;
  l_center_lat : num;
  l_margin : Z * Z * Z * Z;
  l_height : Z;
  l_showlegend : bool;
  l_hovermode : string
}.

Record MapFigure : Type := {
  data : list MapTrace;
  layout : MapLayout
}.

(** [round(df["availability_365"] / 365 * 100, 1)] on one row. *)
Definition yearly_availability (row : Listing) : num :=
  round_to 1
    (fmul (fdiv (Fin (inject_Z (availability_365 row))) (Fin 365)) (Fin 100)).

(** The [zip] of six columns of one frame, row by row. *)
Definition customdatum (row : Listing) : CustomDatum :=
  (name row, host_name row, host_since row, price row,
   accommodates row, yearly_availability row).

Definition customdata_of (df : DataFrame) : list CustomDatum :=
  map customdatum df.

Definition make_mapchart (df : DataFrame) : MapFigure :=
  let customdata := customdata_of df in
  let df_entire_home := where_eq room_type "Entire home/apt" df in
  let df_private_room := where_eq room_type "Private room" df in
  let df_shared_room := where_eq room_type "Shared room" df in
  {| data :=
       [ {| t_type := "scattermapbox";
            t_lat := map latitude df_entire_home;
            t_lon := map longitude df_entire_home;
            t_marker_color := "red";
            t_customdata := customdata;
            t_name := "Entire home";
            t_hovertemplate := make_hovertemplate customdata |};
         {| t_type := "scattermapbox";
            t_lat := map latitude df_private_room;
            t_lon := map longitude df_private_room;
            t_marker_color := "green";
            t_customdata := customdata;
            t_name := "Private room";
            t_hovertemplate := make_hovertemplate customdata |};
         {| t_type := "scattermapbox";
            t_lat := map latitude df_shared_room;
            t_lon := map longitude df_shared_room;
            t_marker_color := "blue";
            t_customdata := customdata;
            t_name := "Shared room";
            t_hovertemplate := make_hovertemplate customdata |} ];
     layout :=
       {| l_style := "open-street-map";
          l_uirevision := true;
          l_zoom := 13;
          l_center_lon := mean (map longitude df);
          l_center_lat := mean (map latitude df);
          l_margin := (10, 10, 10, 10);
          l_height := 900;
          l_showlegend := false;
          l_hovermode := "closest" |} |}.

(** How the chart library draws a trace: point [i] sits at
    [(lat[i], lon[i])], and its hover box is the trace's template filled from
    [customdata[i]] of that same trace. *)
Definition point_position (t : MapTrace) (i : nat) : option (num * num) :=
  match nth_error (t_lat t) i, nth_error (t_lon t) i with
  | Some la, Some lo => Some (la, lo)
  | _, _ => None
  end.

Definition point_tooltip (t : MapTrace) (i : nat) : option CustomDatum :=
  nth_error (t_customdata t) i.

Definition n_points (t : MapTrace) : nat :=
  Nat.min (List.length (t_lat t)) (List.length (t_lon t)).

(** ** [update_num_listings] *)

(** The eleven values of the returned tuple, named after the [Output]s of the
    callback. *)
Record Outputs : Type := {
  o_map : MapFigure;
  o_hist : HistFigure;
  o_est_nights_year : string;
  o_est_occupancy : string;
  o_estimated_income_month : string;
  o_price_night : string;
  o_reviews_listings_month : string;
  o_number_of_reviews : string;
  o_num_listings : nat;
  o_perc_listings : string;
  o_ent_home_perc : string
}.

(** The local [dff]: the rows of the selected neighbourhood, or the whole
    table when the dropdown is cleared ([None]). *)
Definition dff (listings : DataFrame) (nbh_cleansed : option string) : DataFrame :=
  match nbh_cleansed with
  | Some value => where_eq neighbourhood_cleansed value listings
  | None => listings
  end.

(** [s.str.replace("$", "").str.replace(",", "").str.rstrip(".00")] on one
    cell. *)
Definition clean_price (cell : option string) : option string :=
  option_map (fun s => rstrip ".00" (remove_char "," (remove_char "$" s))) cell.

Definition price_night (df : DataFrame) : result num :=
  values <- to_numeric (map clean_price (map price df)) ;;
  Ok (mean values).

(** [a * b] on two columns of one frame. *)
Definition mul_columns (a b : list num) : list num :=
  map (fun p => fmul (fst p) (snd p)) (combine a b).

Definition est_nights_year (df : DataFrame) : num :=
  fmul
    (fmul
       (mean (dropna (mul_columns (map minimum_nights_avg_ntm df)
                                  (map reviews_per_month df))))
       (Fin 12))
    (Fin (1 / (1 - guests_not_leaving_review))).

Definition est_occupancy (df : DataFrame) : num :=
  fdiv (est_nights_year df) (Fin 365).

Definition estimated_income_month (price_night : num) (df : DataFrame) : num :=
  fdiv (fmul price_night (est_nights_year df)) (Fin 12).

Definition sum_Z (xs : list Z) : Z := fold_left Z.add xs 0.

Definition update_num_listings (listings : DataFrame) (nbh_cleansed : option string)
  : result Outputs :=
  let dff := dff listings nbh_cleansed in
  let mapchart := make_mapchart dff in
  let hist := make_hist dff in
  price_night <- price_night dff ;;
  let est_nights_year := est_nights_year dff in
  let est_occupancy := est_occupancy dff in
  let estimated_income_month := estimated_income_month price_night dff in
  perc_listings <- py_truediv (List.length dff) (List.length listings) ;;
  ent_home_perc <-
    py_truediv (List.length (where_eq room_type "Entire home/apt" dff))
               (List.length dff) ;;
  Ok {| o_map := mapchart;
        o_hist := hist;
        o_est_nights_year := format_f 0 est_nights_year;
        o_est_occupancy := format_pct 0 est_occupancy;
        o_estimated_income_month := "$" ++ format_f 2 estimated_income_month;
        o_price_night := "$" ++ format_f 2 price_night;
        o_reviews_listings_month :=
          format_f 2 (mean (dropna (map reviews_per_month dff)));
        o_number_of_reviews :=
          format_f 0 (Fin (inject_Z (sum_Z (map number_of_reviews dff))));
        o_num_listings := List.length dff;
        o_perc_listings := "(" ++ format_pct 0 (Fin perc_listings) ++ ")";
        o_ent_home_perc := format_pct 0 (Fin ent_home_perc) |}.

(** ** Sample tables *)

Definition sample_row (nm nbh rt pr : string) : Listing :=
  {| name := nm; host_name := "Anna"; host_since := "2015-03-01";
     price := Some pr; accommodates := 2; availability_365 := 100;
     room_type := rt; latitude := Fin 45.4; longitude := Fin 12.3;
     minimum_nights_avg_ntm := Fin 2; reviews_per_month := Fin 2;
     number_of_reviews := 10; neighbourhood_cleansed := nbh |}.

(** Three listings, all priced "$100.00", 2 reviews per month, minimum nights
    average 2. *)
Definition three_at_100 : DataFrame :=
  [ sample_row "A" "Cannaregio" "Entire home/apt" "$100.00";
    sample_row "B" "Cannaregio" "Entire home/apt" "$100.00";
    sample_row "C" "Castello" "Entire home/apt" "$100.00" ].

(** * Properties *)

(** ** Filtering and the distinct labels *)

Section Filtering.

Local Open Scope nat_scope.

Lemma where_eq_In (column : Listing -> string) (value : string) (df : DataFrame)
      (row : Listing) :
  In row (where_eq column value df) <-> In row df /\ column row = value.
Proof.
  unfold where_eq. rewrite filter_In, String.eqb_eq. reflexivity.
Qed.

Lemma unique_In (xs : list string) (x : string) : In x (unique xs) <-> In x xs.
Proof.
  induction xs as [|y ys IH]; simpl; [reflexivity|].
  rewrite filter_In, IH, negb_true_iff, String.eqb_neq.
  destruct (string_dec y x) as [->|Hne]; [tauto|].
  split; [tauto|]. intros [H|H]; [tauto|]. right. split; [exact H|congruence].
Qed.

Lemma filter_NoDup {A : Type} (f : A -> bool) (xs : list A) :
  NoDup xs -> NoDup (filter f xs).
Proof.
  induction 1 as [|x xs Hx _ IH]; simpl; [constructor|].
  destruct (f x); [constructor|]; auto.
  rewrite filter_In. tauto.
Qed.

Lemma unique_NoDup (xs : list string) : NoDup (unique xs).
Proof.
  induction xs as [|x xs IH]; simpl; constructor.
  - rewrite filter_In, String.eqb_refl. simpl. intros [_ H]. discriminate.
  - now apply filter_NoDup.
Qed.

(** The distinct values of a column whose entries all equal [x]. *)
Lemma unique_constant (xs : list string) (x : string) :
  xs <> [] -> (forall y, In y xs -> y = x) -> unique xs = [x].
Proof.
  induction xs as [|y ys IH]; intros Hne Hall; [congruence|].
  assert (y = x) as -> by (apply Hall; now left).
  simpl. f_equal.
  destruct ys as [|z zs]; [reflexivity|].
  rewrite IH; [|discriminate|intros w Hw; apply Hall; now right].
  simpl. now rewrite String.eqb_refl.
Qed.

(** How many rows of [df] carry the label [value]. *)
Definition count_label (value : string) (df : DataFrame) : nat :=
  List.length (where_eq neighbourhood_cleansed value df).

(** A row is counted under exactly one of a duplicate-free list of labels
    that contains its own. *)
Lemma one_label_matches (labels : list string) (x : string) :
  NoDup labels -> In x labels ->
  list_sum (map (fun value => if String.eqb x value then 1 else 0) labels) = 1.
Proof.
  induction 1 as [|y ys Hy Hnd IH]; intros Hin; [destruct Hin|].
  simpl. destruct (String.eqb_spec x y) as [->|Hne].
  - f_equal. clear IH Hin Hnd.
    induction ys as [|z zs IHz]; [reflexivity|].
    simpl. destruct (String.eqb_spec y z) as [->|_].
    + exfalso. apply Hy. now left.
    + apply IHz. intros H. apply Hy. now right.
  - destruct Hin as [->|Hin]; [congruence|]. now apply IH.
Qed.

Lemma list_sum_map_add {A : Type} (f g : A -> nat) (xs : list A) :
  list_sum (map (fun x => f x + g x) xs) = list_sum (map f xs) + list_sum (map g xs).
Proof.
  induction xs as [|x xs IH]; simpl; [reflexivity|]. rewrite IH. lia.
Qed.

Lemma counts_partition (labels : list string) (df : DataFrame) :
  NoDup labels ->
  (forall row, In row df -> In (neighbourhood_cleansed row) labels) ->
  list_sum (map (fun value => count_label value df) labels) = List.length df.
Proof.
  intros Hnd. induction df as [|row rest IH]; intros Hall.
  - clear Hnd Hall. induction labels as [|value labels IHl]; simpl; auto.
  - transitivity
      (list_sum
         (map (fun value =>
                 (if String.eqb (neighbourhood_cleansed row) value then 1 else 0)
                 + count_label value rest) labels)).
    + f_equal. apply map_ext. intros value.
      unfold count_label, where_eq. simpl.
      destruct (String.eqb (neighbourhood_cleansed row) value); reflexivity.
    + rewrite list_sum_map_add, one_label_matches, IH; auto.
      * intros r Hr. apply Hall. now right.
      * apply Hall. now left.
Qed.

End Filtering.

(** C6. For every neighbourhood label present in the table, the subset
    derived for that label is non-empty, every one of its rows carries the
    label, and the distinct labels of the subset are exactly that one
    label. *)
Theorem filter_by_present_label (listings : DataFrame) (label : string) :
  In label (neighbourhoods listings) ->
  dff listings (Some label) <> []
  /\ (forall row, In row (dff listings (Some label)) ->
                  neighbourhood_cleansed row = label)
  /\ neighbourhoods (dff listings (Some label)) = [label].
Proof.
  intros Hin. unfold neighbourhoods in Hin. rewrite unique_In, in_map_iff in Hin.
  destruct Hin as (row0 & Hlabel & Hrow0).
  assert (Hall : forall row, In row (dff listings (Some label)) ->
                             neighbourhood_cleansed row = label).
  { intros row Hrow. simpl in Hrow. now apply where_eq_In in Hrow. }
  assert (Hne : dff listings (Some label) <> []).
  { intros Hnil. assert (H : In row0 (dff listings (Some label))).
    { simpl. now apply where_eq_In. }
    rewrite Hnil in H. destruct H. }
  repeat split; auto.
  unfold neighbourhoods. apply unique_constant.
  - destruct (dff listings (Some label)); [congruence|discriminate].
  - intros y Hy. apply in_map_iff in Hy. destruct Hy as (row & <- & Hrow). auto.
Qed.

Lemma filter_by_present_label_witness :
  In "Castello" (neighbourhoods three_at_100)
  /\ dff three_at_100 (Some "Castello") <> []
  /\ (forall row, In row (dff three_at_100 (Some "Castello")) ->
                  neighbourhood_cleansed row = "Castello")
  /\ neighbourhoods (dff three_at_100 (Some "Castello")) = ["Castello"].
Proof.
  split.
  - simpl. right. left. reflexivity.
  - apply (filter_by_present_label three_at_100 "Castello").
    simpl. right. left. reflexivity.
Defined.

(** C8. The per-neighbourhood subsets partition the table: the sizes of the
    subsets derived for the distinct labels of the table add up to the number
    of listings. *)
Theorem neighbourhood_counts_partition (listings : DataFrame) :
  list_sum (map (fun label => List.length (dff listings (Some label)))
                (neighbourhoods listings))
  = List.length listings.
Proof.
  apply (counts_partition (neighbourhoods listings) listings).
  - apply unique_NoDup.
  - intros row Hrow. unfold neighbourhoods. apply unique_In. now apply in_map.
Qed.

(** ** The nightly price *)

(** C1, on the code. For a table of three listings all priced "$100.00" and
    no filter, the update publishes the mean price "$1.00": [rstrip(".00")]
    removes every trailing '0' and '.', so "100.00" is read as "1". The
    estimated nights per year come out as 137. *)
Theorem three_at_100_price_night :
  clean_price (Some "$100.00") = Some "1"
  /\ (exists q, price_night three_at_100 = Ok (Fin q) /\ (q == 1)%Q)
  /\ exists o, update_num_listings three_at_100 None = Ok o
               /\ o_price_night o = "$1.00"
               /\ o_est_nights_year o = "137".
Proof.
  split; [reflexivity|]. split.
  - eexists. split; reflexivity.
  - eexists. split; [reflexivity|]. split; reflexivity.
Qed.

Lemma to_numeric_cell_raises (cell : option string) (e : exn) :
  to_numeric_cell cell = Raise e -> e = ValueError.
Proof.
  destruct cell as [s|]; simpl; [|discriminate].
  unfold to_numeric_str. destruct s; [discriminate|].
  destruct (to_double _); [discriminate|].
  destruct (infinity_spelling _); [discriminate|]. congruence.
Qed.

(** A vectorised call raises as soon as one element does. *)
Lemma mapM_raises {A B : Type} (f : A -> result B) (e : exn) (xs : list A) :
  (forall x e', f x = Raise e' -> e' = e) ->
  (exists x, In x xs /\ f x = Raise e) ->
  mapM f xs = Raise e.
Proof.
  intros Honly. induction xs as [|x xs IH]; intros (y & Hin & Hy).
  - destruct Hin.
  - simpl. destruct (f x) as [v|e'] eqn:Hx.
    + destruct Hin as [->|Hin]; [congruence|].
      simpl. rewrite IH; [reflexivity|]. now exists y.
    + simpl. f_equal. eapply Honly; eauto.
Qed.

(** A price cell that [pd.to_numeric] rejects once the symbol, the separators
    and the trailing characters are removed. *)
Definition malformed_price (cell : option string) : Prop :=
  to_numeric_cell (clean_price cell) = Raise ValueError.





(** ** The empty subset *)

(** C2, as stated, fails: a label that matches no row gives an empty subset,
    and the update raises [ZeroDivisionError] instead of publishing
    sentinels. *)
Lemma empty_subset_raises :
  dff three_at_100 (Some "Lido") = []
  /\ update_num_listings three_at_100 (Some "Lido") = Raise ZeroDivisionError
  /\ forall o, update_num_listings three_at_100 (Some "Lido") <> Ok o.
Proof.
  split; [reflexivity|]. split; [reflexivity|]. intros o. discriminate.
Qed.

(** C2, amended. When the derived subset is empty, the mean-based quantities
    (mean price, estimated nights, occupancy and income, mean reviews per
    month) evaluate to NaN and the count-based ones (number of listings, total
    reviews) to zero, but the update then raises [ZeroDivisionError] on a
    percentage and publishes nothing. *)
Theorem empty_subset_update (listings : DataFrame) (nbh_cleansed : option string) :
  dff listings nbh_cleansed = [] ->
  price_night (dff listings nbh_cleansed) = Ok NaN
  /\ est_nights_year (dff listings nbh_cleansed) = NaN
  /\ est_occupancy (dff listings nbh_cleansed) = NaN
  /\ estimated_income_month NaN (dff listings nbh_cleansed) = NaN
  /\ mean (dropna (map reviews_per_month (dff listings nbh_cleansed))) = NaN
  /\ sum_Z (map number_of_reviews (dff listings nbh_cleansed)) = 0
  /\ List.length (dff listings nbh_cleansed) = O
  /\ update_num_listings listings nbh_cleansed = Raise ZeroDivisionError.
Proof.
  intros Hempty. unfold update_num_listings. rewrite Hempty.
  repeat (split; [reflexivity|]).
  simpl. destruct (List.length listings); reflexivity.
Qed.

Lemma empty_subset_update_witness :
  dff three_at_100 (Some "Lido") = []
  /\ update_num_listings three_at_100 (Some "Lido") = Raise ZeroDivisionError.
Proof.
  split; [reflexivity|].
  apply (empty_subset_update three_at_100 (Some "Lido")). reflexivity.
Defined.

(** ** What a successful update publishes *)

Lemma update_num_listings_Ok (listings : DataFrame) (nbh_cleansed : option string)
      (o : Outputs) :
  update_num_listings listings nbh_cleansed = Ok o ->
  exists p perc ent,
    price_night (dff listings nbh_cleansed) = Ok p
    /\ py_truediv (List.length (dff listings nbh_cleansed)) (List.length listings)
       = Ok perc
    /\ py_truediv
         (List.length (where_eq room_type "Entire home/apt"
                                (dff listings nbh_cleansed)))
         (List.length (dff listings nbh_cleansed)) = Ok ent
    /\ o = {| o_map := make_mapchart (dff listings nbh_cleansed);
              o_hist := make_hist (dff listings nbh_cleansed);
              o_est_nights_year :=
                format_f 0 (est_nights_year (dff listings nbh_cleansed));
              o_est_occupancy :=
                format_pct 0 (est_occupancy (dff listings nbh_cleansed));
              o_estimated_income_month :=
                "$" ++ format_f 2
                         (estimated_income_month p (dff listings nbh_cleansed));
              o_price_night := "$" ++ format_f 2 p;
              o_reviews_listings_month :=
                format_f 2
                  (mean (dropna (map reviews_per_month
                                     (dff listings nbh_cleansed))));
              o_number_of_reviews :=
                format_f 0
                  (Fin (inject_Z
                          (sum_Z (map number_of_reviews
                                      (dff listings nbh_cleansed)))));
              o_num_listings := List.length (dff listings nbh_cleansed);
              o_perc_listings := "(" ++ format_pct 0 (Fin perc) ++ ")";
              o_ent_home_perc := format_pct 0 (Fin ent) |}.
Proof.
  unfold update_num_listings. intros H.
  destruct (price_night (dff listings nbh_cleansed)) as [p|] eqn:Hp;
    [|discriminate].
  cbn [bind] in H.
  destruct (py_truediv (List.length (dff listings nbh_cleansed))
                       (List.length listings)) as [perc|] eqn:Hperc;
    [|discriminate].
  cbn [bind] in H.
  destruct (py_truediv _ (List.length (dff listings nbh_cleansed)))
    as [ent|] eqn:Hent; [|discriminate].
  cbn [bind] in H. injection H as <-.
  exists p, perc, ent. auto.
Qed.

(** ** Estimated activity *)



Lemma mean_same_values (xs ys : list num) :
  dropna xs = dropna ys -> mean xs = mean ys.
Proof. unfold mean. now intros ->. Qed.

Lemma fsum_finite (qs : list Q) (acc : Q) :
  fold_left fadd (map Fin qs) (Fin acc) = Fin (fold_left Qplus qs acc).
Proof.
  revert acc. induction qs as [|q qs IH]; intros acc; [reflexivity|].
  simpl. apply IH.
Qed.

Lemma dropna_finite (qs : list Q) : dropna (map Fin qs) = map Fin qs.
Proof.
  unfold dropna. induction qs as [|q qs IH]; simpl; [reflexivity|]. now f_equal.
Qed.

(** On present values [mean] is the arithmetic mean: the sum over the count. *)
Lemma mean_finite (q : Q) (qs : list Q) :
  mean (map Fin (q :: qs))
  = Fin (fold_left Qplus (q :: qs) 0%Q
         / inject_Z (Z.of_nat (List.length (q :: qs)))).
Proof.
  unfold mean. rewrite dropna_finite. cbn [map].
  change (Fin q :: map Fin qs) with (map Fin (q :: qs)).
  unfold fsum. rewrite fsum_finite, length_map. reflexivity.
Qed.

Lemma fmul_nan_l (y : num) : fmul NaN y = NaN.
Proof. reflexivity. Qed.

Lemma fmul_nan_r (x : num) : fmul x NaN = NaN.
Proof. destruct x; reflexivity. Qed.






(** C5. In one update the subset is derived once, and every published value
    is computed from that subset (the listing percentage also from the size
    of the table): the two figures and the statistics all describe
    [dff listings nbh_cleansed], and two updates that derive the same subset
    from tables of the same size publish the same tuple. *)
Theorem one_subset_per_update (listings : DataFrame) (nbh_cleansed : option string) :
  (forall o, update_num_listings listings nbh_cleansed = Ok o ->
     let subset := dff listings nbh_cleansed in
     exists mean_price perc ent,
       price_night subset = Ok mean_price
       /\ py_truediv (List.length subset) (List.length listings) = Ok perc
       /\ py_truediv (List.length (where_eq room_type "Entire home/apt" subset))
                     (List.length subset) = Ok ent
       /\ o_map o = make_mapchart subset
       /\ o_hist o = make_hist subset
       /\ o_est_nights_year o = format_f 0 (est_nights_year subset)
       /\ o_est_occupancy o = format_pct 0 (est_occupancy subset)
       /\ o_estimated_income_month o
          = "$" ++ format_f 2 (estimated_income_month mean_price subset)
       /\ o_price_night o = "$" ++ format_f 2 mean_price
       /\ o_reviews_listings_month o
          = format_f 2 (mean (dropna (map reviews_per_month subset)))
       /\ o_number_of_reviews o
          = format_f 0 (Fin (inject_Z (sum_Z (map number_of_reviews subset))))
       /\ o_num_listings o = List.length subset
       /\ o_perc_listings o = "(" ++ format_pct 0 (Fin perc) ++ ")"
       /\ o_ent_home_perc o = format_pct 0 (Fin ent))
  /\ (forall listings' nbh_cleansed',
        dff listings' nbh_cleansed' = dff listings nbh_cleansed ->
        List.length listings' = List.length listings ->
        update_num_listings listings' nbh_cleansed'
        = update_num_listings listings nbh_cleansed).
Proof.
  split.
  - intros o Ho subset.
    destruct (update_num_listings_Ok _ _ _ Ho)
      as (p & perc & ent & Hp & Hperc & Hent & ->).
    exists p, perc, ent. cbn. repeat split; auto.
  - intros listings' nbh' Hsame Hlen. unfold update_num_listings.
    rewrite Hsame, Hlen. reflexivity.
Qed.

Lemma one_subset_per_update_witness :
  exists o, update_num_listings three_at_100 (Some "Castello") = Ok o
            /\ o_map o = make_mapchart (dff three_at_100 (Some "Castello"))
            /\ o_hist o = make_hist (dff three_at_100 (Some "Castello")).
Proof.
  eexists. split; [reflexivity|].
  destruct (one_subset_per_update three_at_100 (Some "Castello")) as [H _].
  destruct (H _ eq_refl) as (p & perc & ent & _ & _ & _ & Hmap & Hhist & _).
  split; [exact Hmap|exact Hhist].
Defined.

(** ** Percentages *)

Lemma round_half_even_bounds (q : Q) (lo hi : Z) :
  (inject_Z lo <= q)%Q -> (q <= inject_Z hi)%Q ->
  lo <= round_half_even q <= hi.
Proof.
  destruct q as [n d]. unfold Qle, round_half_even. cbn [Qnum Qden inject_Z].
  intros Hlo Hhi.
  pose proof (Z.div_mod n (Zpos d) ltac:(lia)) as Hdm.
  pose proof (Z.mod_pos_bound n (Zpos d) ltac:(lia)) as Hm.
  assert (Hfl : lo <= n / Zpos d <= hi).
  { split.
    - apply Z.div_le_lower_bound; lia.
    - apply Z.div_le_upper_bound; lia. }
  destruct (Z.compare_spec (2 * (n mod Zpos d)) (Zpos d)) as [He|Hl|Hg].
  - assert (n / Zpos d < hi) by nia.
    destruct (Z.even (n / Zpos d)); lia.
  - lia.
  - assert (n / Zpos d < hi) by nia. lia.
Qed.

Lemma append_empty_r (s : string) : s ++ "" = s.
Proof. induction s as [|c s IH]; simpl; [reflexivity|]. now rewrite IH. Qed.

(** ["{:.0%}"] on a non-negative value: the rounded number of hundredths,
    then the percent sign. *)
Lemma format_pct0_nonneg (q : Q) :
  (0 <= q)%Q ->
  format_pct 0 (Fin q)
  = string_of_nonneg (round_half_even (Qabs (q * 100) * inject_Z 1)) ++ "%".
Proof.
  intros Hq. unfold format_pct, format_f. cbn [fmul].
  change (10 ^ Z.of_nat 0) with 1. rewrite Z.div_1_r.
  assert (Hs : Z.ltb (Qnum (q * 100)) 0 = false).
  { apply Z.ltb_ge. destruct q as [n d]. unfold Qle in Hq. cbn in *. lia. }
  rewrite Hs. cbn [append]. now rewrite append_empty_r.
Qed.

Lemma scaled_ratio_bounds (q : Q) :
  (0 <= q)%Q -> (q <= 1)%Q ->
  (inject_Z 0 <= Qabs (q * 100) * inject_Z 1)%Q
  /\ (Qabs (q * 100) * inject_Z 1 <= inject_Z 100)%Q.
Proof.
  intros H0 H1. destruct q as [n d]. unfold Qle in *. cbn in *. split; lia.
Qed.

Lemma format_pct0_ratio (q : Q) :
  (0 <= q)%Q -> (q <= 1)%Q ->
  exists z, 0 <= z <= 100 /\ format_pct 0 (Fin q) = string_of_nonneg z ++ "%".
Proof.
  intros H0 H1. destruct (scaled_ratio_bounds q H0 H1) as [Hlo Hhi].
  exists (round_half_even (Qabs (q * 100) * inject_Z 1)). split.
  - now apply round_half_even_bounds.
  - now apply format_pct0_nonneg.
Qed.

Lemma format_pct0_one (q : Q) : (q == 1)%Q -> format_pct 0 (Fin q) = "100%".
Proof.
  intros Hq.
  assert (H1 : (1 <= q)%Q /\ (q <= 1)%Q) by (rewrite Hq; split; apply Qle_refl).
  destruct H1 as [Hge Hle].
  assert (H0 : (0 <= q)%Q) by (eapply Qle_trans; [|exact Hge]; discriminate).
  rewrite format_pct0_nonneg by exact H0.
  assert (Hr : round_half_even (Qabs (q * 100) * inject_Z 1) = 100).
  { assert (100 <= round_half_even (Qabs (q * 100) * inject_Z 1) <= 100);
      [|lia].
    apply round_half_even_bounds;
      destruct q as [n d]; unfold Qle in *; cbn in *; lia. }
  rewrite Hr. reflexivity.
Qed.

Lemma py_truediv_Ok (a b : nat) (r : Q) :
  py_truediv a b = Ok r ->
  (0 < b)%nat /\ Qnum r = Z.of_nat a /\ Zpos (Qden r) = Z.of_nat b.
Proof.
  unfold py_truediv. destruct b as [|b']; [discriminate|].
  intros H. injection H as <-. cbn [Qnum Qden].
  split; [lia|]. split; [reflexivity|].
  change (Zpos (Pos.of_nat (S b')) = Z.of_nat (S b')).
  rewrite <- Pos.of_nat_succ, Zpos_P_of_succ_nat, Nat2Z.inj_succ. reflexivity.
Qed.

Lemma py_truediv_nonzero (a b : nat) :
  (0 < b)%nat -> exists r, py_truediv a b = Ok r.
Proof. destruct b; [lia|]. intros _. eexists. reflexivity. Qed.

Lemma where_eq_length (column : Listing -> string) (value : string) (df : DataFrame) :
  (List.length (where_eq column value df) <= List.length df)%nat.
Proof.
  unfold where_eq. induction df as [|row rest IH]; simpl; [lia|].
  destruct (String.eqb (column row) value); simpl; lia.
Qed.

Lemma where_eq_all (column : Listing -> string) (value : string) (df : DataFrame) :
  (forall row, In row df -> column row = value) -> where_eq column value df = df.
Proof.
  unfold where_eq. induction df as [|row rest IH]; intros Hall; [reflexivity|].
  simpl. rewrite (Hall row) by now left. rewrite String.eqb_refl.
  f_equal. apply IH. intros r Hr. apply Hall. now right.
Qed.

Lemma ratio_in_unit_interval (a b : nat) (r : Q) :
  (a <= b)%nat -> py_truediv a b = Ok r -> (0 <= r)%Q /\ (r <= 1)%Q.
Proof.
  intros Hab Hr. destruct (py_truediv_Ok _ _ _ Hr) as (_ & Hn & Hd).
  destruct r as [n d]. unfold Qle. cbn in *. lia.
Qed.

Lemma ratio_of_equal (a : nat) (r : Q) : py_truediv a a = Ok r -> (r == 1)%Q.
Proof.
  intros Hr. destruct (py_truediv_Ok _ _ _ Hr) as (_ & Hn & Hd).
  destruct r as [n d]. unfold Qeq. cbn in *. lia.
Qed.

(** C7. For every non-empty subset the entire-home ratio is defined and its
    percentage lies in [0, 100], the published entire-home percentage is an
    integer between 0 and 100 followed by the percent sign, and it is "100%"
    when every row of the subset is an entire home; with the filter unset the
    published listing-count percentage is "(100%)". *)
Theorem percentages_of_nonempty_subset
        (listings : DataFrame) (nbh_cleansed : option string) :
  dff listings nbh_cleansed <> [] ->
  let subset := dff listings nbh_cleansed in
  (exists ent,
      py_truediv (List.length (where_eq room_type "Entire home/apt" subset))
                 (List.length subset) = Ok ent
      /\ (0 <= ent * 100)%Q /\ (ent * 100 <= 100)%Q)
  /\ (forall o, update_num_listings listings nbh_cleansed = Ok o ->
        exists z, 0 <= z <= 100
                  /\ o_ent_home_perc o = string_of_nonneg z ++ "%")
  /\ ((forall row, In row subset -> room_type row = "Entire home/apt") ->
      forall o, update_num_listings listings nbh_cleansed = Ok o ->
                o_ent_home_perc o = "100%")
  /\ (nbh_cleansed = None ->
      forall o, update_num_listings listings nbh_cleansed = Ok o ->
                o_perc_listings o = "(100%)").
Proof.
  intros Hne subset.
  pose proof (where_eq_length room_type "Entire home/apt" subset) as Hle.
  assert (Hpos : (0 < List.length subset)%nat).
  { subst subset. destruct (dff listings nbh_cleansed); [congruence|simpl; lia]. }
  repeat split.
  - destruct (py_truediv_nonzero
                (List.length (where_eq room_type "Entire home/apt" subset))
                _ Hpos) as [ent Hent].
    exists ent. split; [exact Hent|].
    destruct (ratio_in_unit_interval _ _ _ Hle Hent) as [H0 H1].
    destruct ent as [n d]. unfold Qle in *. cbn in *. lia.
  - intros o Ho.
    destruct (update_num_listings_Ok _ _ _ Ho)
      as (p & perc & ent & _ & _ & Hent & ->).
    cbn [o_ent_home_perc].
    destruct (ratio_in_unit_interval _ _ _ Hle Hent) as [H0 H1].
    now apply format_pct0_ratio.
  - intros Hall o Ho.
    destruct (update_num_listings_Ok _ _ _ Ho)
      as (p & perc & ent & _ & _ & Hent & ->).
    cbn [o_ent_home_perc]. apply format_pct0_one.
    fold subset in Hent. rewrite (where_eq_all _ _ _ Hall) in Hent.
    now apply ratio_of_equal in Hent.
  - intros -> o Ho.
    destruct (update_num_listings_Ok _ _ _ Ho)
      as (p & perc & ent & _ & Hperc & _ & ->).
    cbn [o_perc_listings]. cbn [dff] in Hperc.
    apply ratio_of_equal in Hperc.
    now rewrite (format_pct0_one _ Hperc).
Qed.

Lemma percentages_of_nonempty_subset_witness :
  dff three_at_100 None <> []
  /\ exists o, update_num_listings three_at_100 None = Ok o
               /\ o_ent_home_perc o = "100%"
               /\ o_perc_listings o = "(100%)".
Proof.
  assert (Hne : dff three_at_100 None <> []) by discriminate.
  split; [exact Hne|].
  eexists. split; [reflexivity|].
  destruct (percentages_of_nonempty_subset three_at_100 None Hne)
    as (_ & _ & Hent & Hperc).
  split.
  - apply Hent; [|reflexivity].
    intros row Hrow. simpl in Hrow.
    destruct Hrow as [<-|[<-|[<-|[]]]]; reflexivity.
  - apply Hperc; reflexivity.
Defined.

(** ** The map figure *)

Definition known_room_type (row : Listing) : Prop :=
  room_type row = "Entire home/apt"
  \/ room_type row = "Private room"
  \/ room_type row = "Shared room".

Lemma map_trace_points (column : Listing -> string) (value : string)
      (df : DataFrame) :
  Nat.min (List.length (map latitude (where_eq column value df)))
          (List.length (map longitude (where_eq column value df)))
  = List.length (where_eq column value df).
Proof. rewrite !length_map. apply Nat.min_id. Qed.

(** Every listing with one of the three room types is a point of exactly one
    trace, and the traces carry the fixed colours. *)
Lemma mapchart_one_point_per_listing (df : DataFrame) :
  (forall row, In row df -> known_room_type row) ->
  list_sum (map n_points (data (make_mapchart df))) = List.length df
  /\ map (fun t => (t_name t, t_marker_color t)) (data (make_mapchart df))
     = [("Entire home", "red"); ("Private room", "green"); ("Shared room", "blue")].
Proof.
  intros Hknown. split; [|reflexivity].
  cbn [make_mapchart data map]. unfold n_points. cbn [t_lat t_lon].
  rewrite !map_trace_points. unfold where_eq. cbn [list_sum fold_right].
  induction df as [|row rest IH]; [reflexivity|].
  specialize (IH (fun r Hr => Hknown r (or_intror Hr))).
  cbn [filter].
  destruct (Hknown row (or_introl eq_refl)) as [Hrt | [Hrt | Hrt]];
    rewrite Hrt; cbn [String.eqb Ascii.eqb Bool.eqb andb List.length]; lia.
Qed.

(** The map is centred on the mean longitude and latitude of the subset. *)
Lemma mapchart_center (df : DataFrame) :
  l_center_lon (layout (make_mapchart df)) = mean (map longitude df)
  /\ l_center_lat (layout (make_mapchart df)) = mean (map latitude df).
Proof. split; reflexivity. Qed.

Definition private_first : Listing :=
  {| name := "Room by the canal"; host_name := "Piero";
     host_since := "2012-06-11"; price := Some "$60.00"; accommodates := 2;
     availability_365 := 73; room_type := "Private room";
     latitude := Fin 45.44; longitude := Fin 12.32;
     minimum_nights_avg_ntm := Fin 1; reviews_per_month := Fin 3;
     number_of_reviews := 40; neighbourhood_cleansed := "Cannaregio" |}.

Definition entire_second : Listing :=
  {| name := "Palazzo flat"; host_name := "Elena";
     host_since := "2018-01-20"; price := Some "$250.00"; accommodates := 6;
     availability_365 := 292; room_type := "Entire home/apt";
     latitude := Fin 45.43; longitude := Fin 12.34;
     minimum_nights_avg_ntm := Fin 3; reviews_per_month := NaN;
     number_of_reviews := 0; neighbourhood_cleansed := "Cannaregio" |}.

(** C9, on the code. With a private room listed before an entire home, the
    red "Entire home" trace has one point, at the entire home's coordinates,
    and the customdata entry the chart pairs with that point is the private
    room's: the tooltip shows another listing's name, host, price and
    availability. *)
Theorem entire_home_point_shows_private_room :
  exists t,
    nth_error (data (make_mapchart [private_first; entire_second])) 0 = Some t
    /\ t_name t = "Entire home" /\ t_marker_color t = "red"
    /\ n_points t = 1%nat
    /\ point_position t 0 = Some (latitude entire_second, longitude entire_second)
    /\ point_tooltip t 0 = Some (customdatum private_first)
    /\ customdatum private_first <> customdatum entire_second.
Proof.
  eexists. split; [reflexivity|].
  repeat (split; [reflexivity|]).
  intros H. discriminate H.
Qed.

(** C10. The map builder makes one customdata list from the whole subset, in
    row order, and attaches that list, with the template that indexes into
    it, to each of the three room-type traces: the customdata of a trace is
    never restricted to the rows of its room type. *)
Theorem customdata_shared_by_traces (df : DataFrame) :
  List.length (data (make_mapchart df)) = 3%nat
  /\ Forall
       (fun t =>
          t_customdata t = customdata_of df
          /\ t_hovertemplate t = make_hovertemplate (customdata_of df)
          /\ List.length (t_customdata t) = List.length df
          /\ forall i, point_tooltip t i = option_map customdatum (nth_error df i))
       (data (make_mapchart df)).
Proof.
  split; [reflexivity|].
  assert (Hnth : forall i, nth_error (customdata_of df) i
                           = option_map customdatum (nth_error df i)).
  { intros i. unfold customdata_of. apply nth_error_map. }
  cbn [make_mapchart data].
  repeat constructor; cbn [t_customdata]; unfold customdata_of;
    try apply length_map; intros i; apply Hnth.
Qed.

(** * Further properties of the update *)

(** ** When the update succeeds and how it fails *)

Lemma mapM_all_Ok {A B : Type} (f : A -> result B) (xs : list A) :
  (forall x, In x xs -> exists y, f x = Ok y) -> exists ys, mapM f xs = Ok ys.
Proof.
  induction xs as [|x xs IH]; intros Hall; [now exists []|].
  destruct (Hall x (or_introl eq_refl)) as [y Hy].
  destruct IH as [ys Hys]; [intros z Hz; apply Hall; now right|].
  exists (y :: ys). simpl. rewrite Hy. simpl. rewrite Hys. reflexivity.
Qed.

Lemma mapM_raise_inv {A B : Type} (f : A -> result B) (xs : list A) (e : exn) :
  mapM f xs = Raise e -> exists x, In x xs /\ f x = Raise e.
Proof.
  induction xs as [|x xs IH]; simpl; [discriminate|].
  destruct (f x) as [y|e'] eqn:Hx; simpl.
  - destruct (mapM f xs) as [ys|e''] eqn:Hxs; simpl; [discriminate|].
    intros H. injection H as ->. destruct (IH eq_refl) as (z & Hz & Hfz).
    exists z. split; [now right|exact Hfz].
  - intros H. injection H as ->. exists x. split; [now left|exact Hx].
Qed.

Lemma price_night_raise_inv (df : DataFrame) (e : exn) :
  price_night df = Raise e ->
  e = ValueError /\ exists row, In row df /\ malformed_price (price row).
Proof.
  unfold price_night, to_numeric. intros H.
  destruct (mapM to_numeric_cell (map clean_price (map price df)))
    as [vs|e'] eqn:Hm; [discriminate|].
  simpl in H. injection H as ->.
  destruct (mapM_raise_inv _ _ _ Hm) as (cell & Hin & Hcell).
  pose proof (to_numeric_cell_raises _ _ Hcell) as ->.
  split; [reflexivity|].
  rewrite map_map in Hin. apply in_map_iff in Hin.
  destruct Hin as (row & <- & Hrow). now exists row.
Qed.

Lemma price_night_raises (df : DataFrame) :
  (exists row, In row df /\ malformed_price (price row)) ->
  price_night df = Raise ValueError.
Proof.
  intros (row & Hin & Hbad).
  unfold price_night, to_numeric. rewrite mapM_raises with (e := ValueError).
  - reflexivity.
  - intros cell e'. apply to_numeric_cell_raises.
  - exists (clean_price (price row)). split; [|exact Hbad].
    rewrite map_map. apply in_map_iff. now exists row.
Qed.

Lemma price_night_Ok (df : DataFrame) :
  (forall row, In row df -> ~ malformed_price (price row)) ->
  exists p, price_night df = Ok p.
Proof.
  intros Hgood. destruct (price_night df) as [p|e] eqn:Hp; [now exists p|].
  destruct (price_night_raise_inv _ _ Hp) as (_ & row & Hin & Hbad).
  now destruct (Hgood row Hin).
Qed.

Lemma dff_length (listings : DataFrame) (nbh_cleansed : option string) :
  (List.length (dff listings nbh_cleansed) <= List.length listings)%nat.
Proof.
  destruct nbh_cleansed as [value|]; simpl; [apply where_eq_length|lia].
Qed.

(** The three outcomes of one update, read off its sequence of statements. *)
Lemma update_num_listings_cases (listings : DataFrame) (nbh_cleansed : option string) :
  (dff listings nbh_cleansed = []
   /\ update_num_listings listings nbh_cleansed = Raise ZeroDivisionError)
  \/ (dff listings nbh_cleansed <> []
      /\ (exists row, In row (dff listings nbh_cleansed)
                      /\ malformed_price (price row))
      /\ update_num_listings listings nbh_cleansed = Raise ValueError)
  \/ (dff listings nbh_cleansed <> []
      /\ (forall row, In row (dff listings nbh_cleansed) ->
                      ~ malformed_price (price row))
      /\ exists o, update_num_listings listings nbh_cleansed = Ok o).
Proof.
  pose proof (dff_length listings nbh_cleansed) as Hlen.
  unfold update_num_listings.
  destruct (dff listings nbh_cleansed) as [|row0 rest] eqn:Hd.
  - left. split; [reflexivity|].
    simpl. destruct (List.length listings); reflexivity.
  - right. destruct (price_night (row0 :: rest)) as [p|e] eqn:Hp.
    + right. split; [discriminate|]. split.
      * intros row Hin Hbad.
        rewrite price_night_raises in Hp by (now exists row). discriminate.
      * cbn [bind].
        destruct (py_truediv_nonzero (List.length (row0 :: rest))
                                     (List.length listings)) as [perc ->];
          [simpl in *; lia|].
        destruct (py_truediv_nonzero
                    (List.length (where_eq room_type "Entire home/apt"
                                           (row0 :: rest)))
                    (List.length (row0 :: rest))) as [ent ->];
          [simpl; lia|].
        cbn [bind]. eexists. reflexivity.
    + left. split; [discriminate|].
      destruct (price_night_raise_inv _ _ Hp) as (-> & Hbad).
      split; [exact Hbad|reflexivity].
Qed.


(** The update raises [ZeroDivisionError] exactly when the subset is empty:
    a bad price in a non-empty subset is reported as [ValueError] instead. *)
Theorem update_zero_division_iff (listings : DataFrame) (nbh_cleansed : option string) :
  update_num_listings listings nbh_cleansed = Raise ZeroDivisionError
  <-> dff listings nbh_cleansed = [].
Proof.
  destruct (update_num_listings_cases listings nbh_cleansed)
    as [(He & Hu)|[(Hne & Hbad & Hu)|(Hne & Hgood & (o & Hu))]].
  - tauto.
  - split; [congruence|tauto].
  - split; [congruence|tauto].
Qed.

(** The update raises [ValueError] exactly when some row of the subset has a
    malformed price. *)
Theorem update_value_error_iff (listings : DataFrame) (nbh_cleansed : option string) :
  update_num_listings listings nbh_cleansed = Raise ValueError
  <-> exists row, In row (dff listings nbh_cleansed)
                  /\ malformed_price (price row).
Proof.
  destruct (update_num_listings_cases listings nbh_cleansed)
    as [(He & Hu)|[(Hne & Hbad & Hu)|(Hne & Hgood & (o & Hu))]].
  - split; [congruence|]. intros (row & Hin & _). rewrite He in Hin. destruct Hin.
  - tauto.
  - split; [congruence|]. intros (row & Hin & Hrow).
    now destruct (Hgood row Hin).
Qed.

(** Every value the dropdown offers is a label of some row, so choosing it
    never makes the update divide by zero. *)
Theorem dropdown_value_never_divides_by_zero (listings : DataFrame) (label : string) :
  In label (neighbourhoods listings) ->
  update_num_listings listings (Some label) <> Raise ZeroDivisionError.
Proof.
  intros Hin Hraise.
  unfold neighbourhoods in Hin. rewrite unique_In, in_map_iff in Hin.
  destruct Hin as (row & Hlabel & Hrow).
  destruct (update_num_listings_cases listings (Some label))
    as [(He & _)|[(_ & _ & Hu)|(_ & _ & (o & Hu))]]; try congruence.
  assert (H : In row (dff listings (Some label))) by (simpl; now apply where_eq_In).
  rewrite He in H. destruct H.
Qed.

Lemma dropdown_value_never_divides_by_zero_witness :
  In "Castello" (neighbourhoods three_at_100)
  /\ update_num_listings three_at_100 (Some "Castello") <> Raise ZeroDivisionError.
Proof.
  assert (H : In "Castello" (neighbourhoods three_at_100)).
  { simpl. right. left. reflexivity. }
  split; [exact H|].
  exact (dropdown_value_never_divides_by_zero three_at_100 "Castello" H).
Defined.

(** ** What the price cleaning keeps and what it loses *)

Fixpoint last_char (s : string) : option ascii :=
  match s with
  | EmptyString => None
  | String c EmptyString => Some c
  | String _ rest => last_char rest
  end.

Lemma append_associative (s t u : string) : s ++ (t ++ u) = (s ++ t) ++ u.
Proof. induction s as [|c s IH]; simpl; [reflexivity|]. now rewrite IH. Qed.

Lemma remove_char_app (c : ascii) (s t : string) :
  remove_char c (s ++ t) = remove_char c s ++ remove_char c t.
Proof.
  induction s as [|d s IH]; simpl; [reflexivity|].
  destruct (Ascii.eqb d c); simpl; now rewrite IH.
Qed.

Lemma mem_char_remove_same (c : ascii) (s : string) :
  mem_char c (remove_char c s) = false.
Proof.
  induction s as [|d s IH]; simpl; [reflexivity|].
  destruct (Ascii.eqb d c) eqn:Hd; [exact IH|].
  simpl. rewrite IH, Ascii.eqb_sym, Hd. reflexivity.
Qed.

Lemma mem_char_remove_other (c d : ascii) (s : string) :
  mem_char d s = false -> mem_char d (remove_char c s) = false.
Proof.
  induction s as [|e s IH]; simpl; [reflexivity|].
  intros H. apply orb_false_iff in H. destruct H as [He Hs].
  destruct (Ascii.eqb e c); simpl; [auto|]. rewrite He. simpl. auto.
Qed.

Lemma rstrip_app_member (chars s : string) (c : ascii) :
  mem_char c chars = true ->
  rstrip chars (s ++ String c EmptyString) = rstrip chars s.
Proof.
  intros Hc. induction s as [|d s IH]; simpl.
  - now rewrite Hc.
  - now rewrite IH.
Qed.

Lemma rstrip_app_nonmember (chars s : string) (c : ascii) :
  mem_char c chars = false ->
  rstrip chars (s ++ String c EmptyString) = s ++ String c EmptyString.
Proof.
  intros Hc. induction s as [|d s IH]; simpl.
  - now rewrite Hc.
  - rewrite IH. destruct s; reflexivity.
Qed.

Lemma rstrip_last (chars s : string) (c : ascii) :
  last_char (rstrip chars s) = Some c -> mem_char c chars = false.
Proof.
  induction s as [|d s IH]; simpl; [discriminate|].
  destruct (rstrip chars s) as [|e kept] eqn:Hr.
  - destruct (mem_char d chars) eqn:Hd; simpl; [discriminate|].
    intros H. now injection H as <-.
  - intros H. apply IH. exact H.
Qed.

Lemma rstrip_members (chars s : string) (c : ascii) :
  mem_char c s = false -> mem_char c (rstrip chars s) = false.
Proof.
  induction s as [|d s IH]; simpl; [reflexivity|].
  intros H. apply orb_false_iff in H. destruct H as [Hd Hs].
  specialize (IH Hs).
  destruct (rstrip chars s) as [|e kept].
  - destruct (mem_char d chars); simpl; [reflexivity|]. now rewrite Hd.
  - cbn [mem_char] in *. rewrite Hd. exact IH.
Qed.

(** Trailing zeros and dots are invisible to the price reader: appending '0'
    or '.' to a price cell does not change what it is cleaned to, so "$1",
    "$1.00", "$10.00" and "$100.00" are all read as the same price. *)
Theorem clean_price_ignores_trailing_zeros (s : string) :
  clean_price (Some (s ++ "0")) = clean_price (Some s)
  /\ clean_price (Some (s ++ ".")) = clean_price (Some s)
  /\ clean_price (Some (s ++ ".00")) = clean_price (Some s).
Proof.
  assert (H0 : forall t, clean_price (Some (t ++ "0")) = clean_price (Some t)).
  { intros t. unfold clean_price. cbn [option_map]. f_equal.
    rewrite !remove_char_app. cbn [remove_char Ascii.eqb Bool.eqb].
    now apply rstrip_app_member. }
  assert (Hd : forall t, clean_price (Some (t ++ ".")) = clean_price (Some t)).
  { intros t. unfold clean_price. cbn [option_map]. f_equal.
    rewrite !remove_char_app. cbn [remove_char Ascii.eqb Bool.eqb].
    now apply rstrip_app_member. }
  split; [apply H0|]. split; [apply Hd|].
  change (s ++ ".00") with (s ++ ("." ++ ("0" ++ "0"))).
  rewrite !append_associative. now rewrite !H0, Hd.
Qed.

(** A price cell whose last character is none of '$', ',', '.', '0' only
    loses its currency symbols and grouping separators. *)
Theorem clean_price_keeps_significant_tail (s : string) (c : ascii) :
  mem_char c "$,.0" = false ->
  clean_price (Some (s ++ String c EmptyString))
  = Some (remove_char "," (remove_char "$" s) ++ String c EmptyString).
Proof.
  intros Hc. cbn [mem_char] in Hc.
  repeat (apply orb_false_iff in Hc; destruct Hc as [? Hc]).
  unfold clean_price. cbn [option_map]. f_equal.
  rewrite !remove_char_app. cbn [remove_char].
  replace (Ascii.eqb c "$") with false by (symmetry; assumption).
  cbn [remove_char append].
  replace (Ascii.eqb c ",") with false by (symmetry; assumption).
  apply rstrip_app_nonmember. cbn [mem_char].
  repeat (apply orb_false_iff; split); auto.
Qed.

Lemma clean_price_keeps_significant_tail_witness :
  mem_char "6" "$,.0" = false
  /\ clean_price (Some "$1,234.56") = Some "1234.56".
Proof.
  split; [reflexivity|].
  exact (clean_price_keeps_significant_tail "$1,234.5" "6" eq_refl).
Defined.

(** A cleaned price cell contains neither '$' nor ',' and never ends in '0'
    or '.'. *)
Theorem clean_price_shape (cell : option string) (t : string) :
  clean_price cell = Some t ->
  mem_char "$" t = false /\ mem_char "," t = false
  /\ last_char t <> Some "0"%char /\ last_char t <> Some "."%char.
Proof.
  destruct cell as [s|]; [|discriminate].
  unfold clean_price. cbn [option_map]. intros H. injection H as <-.
  split; [|split].
  - apply rstrip_members, mem_char_remove_other, mem_char_remove_same.
  - apply rstrip_members, mem_char_remove_same.
  - split; intros H; apply rstrip_last in H; discriminate.
Qed.

Lemma clean_price_shape_witness :
  clean_price (Some "$1,200.50") = Some "1200.5"
  /\ mem_char "$" "1200.5" = false /\ mem_char "," "1200.5" = false
  /\ last_char "1200.5" <> Some "0"%char /\ last_char "1200.5" <> Some "."%char.
Proof.
  split; [reflexivity|].
  exact (clean_price_shape (Some "$1,200.50") "1200.5" eq_refl).
Defined.

(** ** Cells the mean price skips *)

(** A row whose price cell is missing, or is cleaned to the empty string (as
    "$0.00" is). *)
Definition reads_as_missing (row : Listing) : bool :=
  match clean_price (price row) with
  | None => true
  | Some EmptyString => true
  | Some _ => false
  end.

Definition price_cells (df : DataFrame) : list (option string) :=
  map clean_price (map price df).

Lemma reads_as_missing_NaN (row : Listing) :
  reads_as_missing row = true ->
  to_numeric_cell (clean_price (price row)) = Ok NaN.
Proof.
  unfold reads_as_missing.
  destruct (clean_price (price row)) as [[|c s]|]; try discriminate; reflexivity.
Qed.

Lemma to_numeric_skips_missing (df : DataFrame) :
  match to_numeric (price_cells df),
        to_numeric (price_cells (filter (fun row => negb (reads_as_missing row)) df))
  with
  | Ok a, Ok b => dropna a = dropna b
  | Raise e, Raise e' => e = e'
  | _, _ => False
  end.
Proof.
  unfold to_numeric, price_cells.
  induction df as [|row rest IH]; [reflexivity|].
  cbn [map filter].
  destruct (reads_as_missing row) eqn:Hmiss; cbn [negb map mapM].
  - rewrite (reads_as_missing_NaN _ Hmiss). cbn [bind].
    destruct (mapM to_numeric_cell (map clean_price (map price rest))) as [a|e];
      destruct (mapM to_numeric_cell
                  (map clean_price
                     (map price
                        (filter (fun r => negb (reads_as_missing r)) rest))))
        as [b|e']; cbn [bind]; auto.
  - destruct (to_numeric_cell (clean_price (price row))) as [v|e]; cbn [bind];
      [|reflexivity].
    destruct (mapM to_numeric_cell (map clean_price (map price rest))) as [a|e];
      destruct (mapM to_numeric_cell
                  (map clean_price
                     (map price
                        (filter (fun r => negb (reads_as_missing r)) rest))))
        as [b|e']; cbn [bind]; auto.
    unfold dropna in *. cbn [filter]. now rewrite IH.
Qed.

(** Rows whose price is missing, or is cleaned to the empty string, do not
    take part in the mean price: removing them from the subset changes neither
    the mean nor the error. *)
Theorem price_night_skips_missing (df : DataFrame) :
  price_night df
  = price_night (filter (fun row => negb (reads_as_missing row)) df).
Proof.
  pose proof (to_numeric_skips_missing df) as H.
  unfold price_night. fold (price_cells df).
  fold (price_cells (filter (fun row => negb (reads_as_missing row)) df)).
  destruct (to_numeric (price_cells df)) as [a|e];
    destruct (to_numeric
                (price_cells (filter (fun row => negb (reads_as_missing row)) df)))
      as [b|e']; cbn [bind]; try contradiction.
  - f_equal. now apply mean_same_values.
  - now f_equal.
Qed.

(** A listing priced "$0.00" is such a row: it is skipped, not averaged in as
    zero. *)
Lemma zero_price_reads_as_missing (row : Listing) :
  price row = Some "$0.00" -> reads_as_missing row = true.
Proof. unfold reads_as_missing. now intros ->. Qed.

(** ** The counts *)




(** The published listing count is between 1 and the size of the table, and
    the published share of the table is a whole percentage between 0 and 100
    in parentheses. *)
Theorem listing_count_and_share
        (listings : DataFrame) (nbh_cleansed : option string) (o : Outputs) :
  update_num_listings listings nbh_cleansed = Ok o ->
  (1 <= o_num_listings o <= List.length listings)%nat
  /\ exists z, 0 <= z <= 100
               /\ o_perc_listings o = "(" ++ (string_of_nonneg z ++ "%") ++ ")".
Proof.
  intros Ho.
  pose proof (dff_length listings nbh_cleansed) as Hlen.
  destruct (update_num_listings_Ok _ _ _ Ho)
    as (p & perc & ent & _ & Hperc & Hent & ->).
  cbn [o_num_listings o_perc_listings]. split.
  - destruct (py_truediv_Ok _ _ _ Hent) as (Hpos & _). lia.
  - destruct (ratio_in_unit_interval _ _ _ Hlen Hperc) as [H0 H1].
    destruct (format_pct0_ratio perc H0 H1) as (z & Hz & ->).
    exists z. split; [exact Hz|reflexivity].
Qed.

Lemma listing_count_and_share_witness :
  exists o, update_num_listings three_at_100 (Some "Castello") = Ok o
            /\ (1 <= o_num_listings o <= 3)%nat
            /\ o_perc_listings o = "(33%)".
Proof.
  eexists. split; [reflexivity|].
  split; [|reflexivity].
  exact (proj1 (listing_count_and_share three_at_100 (Some "Castello") _ eq_refl)).
Defined.

(** ** The two figures *)

Definition known_room_typeb (row : Listing) : bool :=
  (String.eqb (room_type row) "Entire home/apt"
   || String.eqb (room_type row) "Private room"
   || String.eqb (room_type row) "Shared room")%bool.

Lemma room_type_counts (df : DataFrame) :
  (List.length (where_eq room_type "Entire home/apt" df)
   + List.length (where_eq room_type "Private room" df)
   + List.length (where_eq room_type "Shared room" df)
   = List.length (filter known_room_typeb df))%nat.
Proof.
  unfold where_eq, known_room_typeb.
  induction df as [|row rest IH]; [reflexivity|].
  cbn [filter].
  destruct (String.eqb_spec (room_type row) "Entire home/apt") as [He|He].
  - rewrite He. cbn [String.eqb Ascii.eqb Bool.eqb andb orb List.length]. lia.
  - destruct (String.eqb_spec (room_type row) "Private room") as [Hp|Hp].
    + rewrite Hp. cbn [String.eqb Ascii.eqb Bool.eqb andb orb List.length]. lia.
    + destruct (String.eqb (room_type row) "Shared room");
        cbn [orb List.length]; lia.
Qed.

(** Each histogram trace holds only the room type it is named after, and the
    three traces together have one entry per listing whose room type is one
    of the three: a listing of any other room type is in no trace. *)
Theorem hist_traces_by_room_type (df : DataFrame) :
  Forall (fun t => forall y, In y (h_y t) -> y = h_name t)
         (h_traces (make_hist df))
  /\ list_sum (map (fun t => List.length (h_y t)) (h_traces (make_hist df)))
     = List.length (filter known_room_typeb df).
Proof.
  split.
  - cbn [make_hist h_traces].
    repeat constructor; cbn [h_y h_name]; intros y Hy;
      apply in_map_iff in Hy; destruct Hy as (row & <- & Hrow);
      now apply where_eq_In in Hrow.
  - cbn [make_hist h_traces map h_y list_sum fold_right].
    rewrite !length_map. pose proof (room_type_counts df). lia.
Qed.

(** In the map figure every trace has as many latitudes as longitudes, and
    the traces together have one point per listing whose room type is one of
    the three. *)
Theorem mapchart_points (df : DataFrame) :
  Forall (fun t => List.length (t_lat t) = List.length (t_lon t))
         (data (make_mapchart df))
  /\ list_sum (map n_points (data (make_mapchart df)))
     = List.length (filter known_room_typeb df).
Proof.
  split.
  - cbn [make_mapchart data].
    repeat constructor; cbn [t_lat t_lon]; now rewrite !length_map.
  - cbn [make_mapchart data map]. unfold n_points. cbn [t_lat t_lon].
    rewrite !map_trace_points. cbn [list_sum fold_right].
    pose proof (room_type_counts df). lia.
Qed.

(** The room type each trace of the map figure is filtered on, in the order
    of the traces. *)
Definition trace_room_types : list string :=
  ["Entire home/apt"; "Private room"; "Shared room"].

(** When the whole subset has one room type, the trace of that room type
    draws every listing at its own coordinates with its own tooltip data. *)
Theorem single_room_type_tooltips
        (df : DataFrame) (k : nat) (value : string) (t : MapTrace)
        (i : nat) (row : Listing) :
  nth_error trace_room_types k = Some value ->
  (forall r, In r df -> room_type r = value) ->
  nth_error (data (make_mapchart df)) k = Some t ->
  nth_error df i = Some row ->
  point_position t i = Some (latitude row, longitude row)
  /\ point_tooltip t i = Some (customdatum row).
Proof.
  intros Hk Hall Ht Hrow.
  assert (Hpos : t_lat t = map latitude df /\ t_lon t = map longitude df
                 /\ t_customdata t = customdata_of df).
  { destruct k as [|[|[|k]]]; cbn in Hk;
      [ | | |destruct k; discriminate];
      injection Hk as <-; cbn [make_mapchart data nth_error] in Ht;
      injection Ht as <-; cbn [t_lat t_lon t_customdata];
      rewrite (where_eq_all _ _ _ Hall); auto. }
  destruct Hpos as (Hlat & Hlon & Hcd).
  unfold point_position, point_tooltip. rewrite Hlat, Hlon, Hcd.
  unfold customdata_of. rewrite !nth_error_map, Hrow. split; reflexivity.
Qed.

Lemma single_room_type_tooltips_witness :
  exists t,
    nth_error (data (make_mapchart three_at_100)) 0 = Some t
    /\ point_position t 2 = Some (Fin 45.4, Fin 12.3)
    /\ point_tooltip t 2
       = Some (customdatum (sample_row "C" "Castello" "Entire home/apt" "$100.00")).
Proof.
  eexists. split; [reflexivity|].
  apply (single_room_type_tooltips three_at_100 0 "Entire home/apt" _ 2
           (sample_row "C" "Castello" "Entire home/apt" "$100.00")).
  - reflexivity.
  - intros r Hr. simpl in Hr. destruct Hr as [<-|[<-|[<-|[]]]]; reflexivity.
  - reflexivity.
  - reflexivity.
Defined.

(** ** The filter *)

Lemma where_eq_idempotent (column : Listing -> string) (value : string)
      (df : DataFrame) :
  where_eq column value (where_eq column value df) = where_eq column value df.
Proof.
  apply where_eq_all. intros row Hrow. now apply where_eq_In in Hrow.
Qed.

(** Filtering an already filtered table by the same selector changes nothing,
    and filtering it by another label leaves no row. *)
Theorem filter_twice (listings : DataFrame) (nbh_cleansed : option string) :
  dff (dff listings nbh_cleansed) nbh_cleansed = dff listings nbh_cleansed
  /\ forall a b, a <> b -> dff (dff listings (Some a)) (Some b) = [].
Proof.
  split.
  - destruct nbh_cleansed as [value|]; simpl; [apply where_eq_idempotent|reflexivity].
  - intros a b Hab. simpl.
    destruct (where_eq neighbourhood_cleansed b
                       (where_eq neighbourhood_cleansed a listings))
      as [|row rest] eqn:Hw; [reflexivity|].
    assert (Hin : In row (where_eq neighbourhood_cleansed b
                                   (where_eq neighbourhood_cleansed a listings)))
      by (rewrite Hw; now left).
    apply where_eq_In in Hin. destruct Hin as [Hin Hb].
    apply where_eq_In in Hin. destruct Hin as [_ Ha]. congruence.
Qed.

(** The labels offered for filtering are duplicate-free and are exactly the
    labels carried by some row of the table. *)
Theorem neighbourhoods_distinct_and_complete (listings : DataFrame) :
  NoDup (neighbourhoods listings)
  /\ forall label,
       In label (neighbourhoods listings)
       <-> exists row, In row listings /\ neighbourhood_cleansed row = label.
Proof.
  split; [apply unique_NoDup|].
  intros label. unfold neighbourhoods. rewrite unique_In, in_map_iff.
  split; intros (row & H1 & H2); exists row; auto.
Qed.

(** ** The yearly availability shown in the tooltip *)

Lemma round_half_even_error (q : Q) :
  2 * Z.abs (round_half_even q * Zpos (Qden q) - Qnum q) <= Zpos (Qden q).
Proof.
  destruct q as [n d]. unfold round_half_even. cbn [Qnum Qden].
  pose proof (Z.div_mod n (Zpos d) ltac:(lia)) as Hdm.
  pose proof (Z.mod_pos_bound n (Zpos d) ltac:(lia)) as Hm.
  destruct (Z.compare_spec (2 * (n mod Zpos d)) (Zpos d)) as [He|Hl|Hg];
    [destruct (Z.even (n / Zpos d))| |]; nia.
Qed.

(** For an availability between 0 and 365 days the tooltip value is a number
    of tenths between 0 and 100 percent, within a twentieth of a percent of
    the exact share 100 * days / 365. *)
Theorem yearly_availability_range (row : Listing) :
  0 <= availability_365 row <= 365 ->
  exists tenths,
    yearly_availability row = Fin (inject_Z tenths / inject_Z 10)
    /\ 0 <= tenths <= 1000
    /\ 2 * Z.abs (73 * tenths - 200 * availability_365 row) <= 73.
Proof.
  intros Ha. unfold yearly_availability, round_to.
  cbn [fdiv fmul inject_Z Qnum Z.eqb].
  set (x := ((availability_365 row # 1) / 365 * 100
             * inject_Z (10 ^ Z.of_nat 1))%Q).
  exists (round_half_even x). split; [reflexivity|].
  pose proof (round_half_even_error x) as Herr.
  assert (Hn : Qnum x = availability_365 row * 1000) by (subst x; cbn; lia).
  assert (Hd : Zpos (Qden x) = 365) by (subst x; reflexivity).
  rewrite Hn, Hd in Herr. lia.
Qed.

Lemma yearly_availability_range_witness :
  0 <= availability_365 private_first <= 365
  /\ exists tenths,
       yearly_availability private_first = Fin (inject_Z tenths / inject_Z 10)
       /\ 0 <= tenths <= 1000
       /\ 2 * Z.abs (73 * tenths - 200 * availability_365 private_first) <= 73.
Proof.
  assert (H : 0 <= availability_365 private_first <= 365) by (cbn; lia).
  split; [exact H|]. exact (yearly_availability_range private_first H).
Defined.

(** * The page layout

    The component tree the program builds at start-up: [header], [side_panel],
    [body] and [app.layout], with the helpers [room_type] and [activity]. *)

Definition content_font_size : string := "13px".

Definition header_question_text : string :=
  "How is Airbnb really being used in and affecting your neighbourhoods?".

Definition room_type_text : string :=
  "Airbnb hosts can list entire homes/apartments, private or
                    shared rooms. Depending on the room type, availability, and
                    activity, an airbnb listing could be more like a hotel,
                    disruptive for neighbours, taking away housing, and illegal.".

Definition activity_text_1 : string :=
  "Airbnb guests may leave a review after their stay, and these can be used as an indicator of airbnb activity.
".

Definition activity_text_2 : string :=
  "The minimum stay, price and number of reviews have been used to estimate the occupancy rate, the number of
                    nights per year and the income per month for each listing.".

Definition activity_text_3 : string :=
  "How does the income from Airbnb compare to a long-term lease?".

Definition activity_text_4 : string :=
  "Do the number of nights booked per year make it impossible for a listing to be used for residential housing?".

Definition activity_text_5 : string :=
  "And what is renting to a tourist full-time rather than a resident doing to our neighbourhoods and cities?".

Inductive Figure : Type :=
| HistFig (figure : HistFigure)
| MapFig (figure : MapFigure).

Definition Style : Type := list (string * string).

(** A Dash component: an HTML element with its [id], [className], [style]
    and [children]; a [dcc.Dropdown]; a [dcc.Graph]. *)
Inductive Component : Type :=
| Html (tag : string) (id : option string) (className : option string)
       (style : Style) (children : Children)
| Dropdown (id : string) (options : list (string * string)) (className : string)
| Graph (id : string) (figure : Figure) (config : list (string * bool))
        (style : Style)
with Children : Type :=
| NoChildren
| Text (s : string)
| Nodes (cs : list Component).

Definition bold : Style := [("font-weight", "bold")].

Definition header : Component :=
  Html "div" None None []
    (Nodes
       [ Html "h4" None (Some "title") [] (Text "Airbnb listings dashboard");
         Html "h5" None (Some "subtitle") [] (Text "Adding data to the debate") ]).

Definition room_type_panel (listings : DataFrame) : list Component :=
  [ Html "p" None None bold (Text header_question_text);
    Html "h5" None None [] (Text "Room Type");
    Html "hr" None None [] NoChildren;
    Html "div" None (Some "sidePanelContent") []
      (Nodes
         [ Html "p" None None
             [("width", "100px"); ("font-size", content_font_size)]
             (Text room_type_text);
           Graph "hist" (HistFig (make_hist listings))
                 [("displayModeBar", false)] [("width", "60%")];
           Html "div" None None
             [("text-align", "right"); ("padding", "5px");
              ("font-size", content_font_size)]
             (Nodes
                [ Html "h3" (Some "ent_home_perc") None [] NoChildren;
                  Html "p" None None [] (Text "entire homes/apartments");
                  Html "p" (Some "price_night") None bold NoChildren;
                  Html "p" None None [] (Text "price/night") ]) ]) ].

Definition activity : list Component :=
  [ Html "h5" None None [] (Text "Activity");
    Html "hr" None None [] NoChildren;
    Html "div" None (Some "sidePanelContent") []
      (Nodes
         [ Html "div" None None
             [("width", "60%"); ("font-size", content_font_size)]
             (Nodes
                [ Html "p" None None [] (Text activity_text_1);
                  Html "p" None None [] (Text activity_text_2);
                  Html "p" None None [] (Text activity_text_3);
                  Html "p" None None [] (Text activity_text_4);
                  Html "p" None None [] (Text activity_text_5) ]);
           Html "div" None None
             [("padding", "5px"); ("font-size", content_font_size)]
             (Nodes
                [ Html "h3" (Some "est_nights_year") None [] NoChildren;
                  Html "p" None None [] (Text "estimated nights/year");
                  Html "p" (Some "reviews_listings_month") None bold NoChildren;
                  Html "p" None None [] (Text "reviews/listing/month");
                  Html "p" (Some "number_of_reviews") None bold NoChildren;
                  Html "p" None None [] (Text "reviews");
                  Html "p" (Some "est_occupancy") None bold NoChildren;
                  Html "p" None None [] (Text "estimated occupancy");
                  Html "p" (Some "estimated_income_month") None bold NoChildren;
                  Html "p" None None [] (Text "estimated income/month") ]) ]) ].

(** [number_of_listings = len(listings)] *)
Definition number_of_listings (listings : DataFrame) : nat := List.length listings.

(** [str(n)] on a non-negative [int]. *)
Definition str_of_nat (n : nat) : string := string_of_nonneg (Z.of_nat n).

Definition side_panel (listings : DataFrame) : Component :=
  Html "div" None (Some "sidePanel") []
    (Nodes
       [ Html "div" None (Some "contentHeader") []
           (Nodes
              [ Html "h2" None None [] (Text "Venice");
                Html "p" None None [] (Text "filter by");
                Html "div" None (Some "sidePanelContent") []
                  (Nodes
                     [ Dropdown "nbh_dropdown"
                         (map (fun nbh => (nbh, nbh)) (neighbourhoods listings))
                         "nbhDropdown";
                       Html "div" None None [("text-align", "right")]
                         (Nodes
                            [ Html "h3" (Some "num_listings") None [] NoChildren;
                              Html "p" None None []
                                (Text ("out of "
                                       ++ str_of_nat (number_of_listings listings)
                                       ++ " listings"));
                              Html "p" (Some "perc_listings") None [] NoChildren ])
                     ]) ]);
         Html "p" None None bold (Text header_question_text);
         Html "h5" None None [] (Text "Room Type");
         Html "hr" None None [] NoChildren;
         Html "div" None (Some "sidePanelContent") []
           (Nodes
              [ Html "p" None None
                  [("width", "100px"); ("font-size", content_font_size)]
                  (Text room_type_text);
                Graph "hist" (HistFig (make_hist listings))
                      [("displayModeBar", false)] [("width", "60%")];
                Html "div" None None
                  [("text-align", "right"); ("padding", "5px");
                   ("font-size", content_font_size)]
                  (Nodes
                     [ Html "h3" (Some "ent_home_perc") None [] NoChildren;
                       Html "p" None None [] (Text "entire homes/apartments");
                       Html "p" (Some "price_night") None bold NoChildren;
                       Html "p" None None [] (Text "price/night") ]) ]);
         Html "h5" None None [] (Text "Activity");
         Html "hr" None None [] NoChildren;
         Html "div" None (Some "sidePanelContent") []
           (Nodes
              [ Html "div" None None
                  [("width", "60%"); ("font-size", content_font_size)]
                  (Nodes
                     [ Html "p" None None [] (Text activity_text_1);
                       Html "p" None None [] (Text activity_text_2);
                       Html "p" None None [] (Text activity_text_3);
                       Html "p" None None [] (Text activity_text_4);
                       Html "p" None None [] (Text activity_text_5) ]);
                Html "div" None None
                  [("padding", "5px"); ("font-size", content_font_size)]
                  (Nodes
                     [ Html "h3" (Some "est_nights_year") None [] NoChildren;
                       Html "p" None None [] (Text "estimated nights/year");
                       Html "p" (Some "reviews_listings_month") None bold
                            NoChildren;
                       Html "p" None None [] (Text "reviews/listing/month");
                       Html "p" (Some "number_of_reviews") None bold NoChildren;
                       Html "p" None None [] (Text "reviews");
                       Html "p" (Some "est_occupancy") None bold NoChildren;
                       Html "p" None None [] (Text "estimated occupancy");
                       Html "p" (Some "estimated_income_month") None bold
                            NoChildren;
                       Html "p" None None [] (Text "estimated income/month") ])
              ]) ]).

Definition body (listings : DataFrame) : Component :=
  Html "div" None (Some "columns") []
    (Nodes [ Graph "map" (MapFig (make_mapchart listings)) [] [];
             side_panel listings ]).

(** [app.layout] *)
Definition layout_of (listings : DataFrame) : Component :=
  Html "div" None None [] (Nodes [ header; body listings ]).

(** The [Output]s and the [Input] of the [@callback] decorator: component id
    and property. *)
Definition callback_outputs : list (string * string) :=
  [ ("map", "figure"); ("hist", "figure");
    ("est_nights_year", "children"); ("est_occupancy", "children");
    ("estimated_income_month", "children"); ("price_night", "children");
    ("reviews_listings_month", "children"); ("number_of_reviews", "children");
    ("num_listings", "children"); ("perc_listings", "children");
    ("ent_home_perc", "children") ].

Definition callback_input : string * string := ("nbh_dropdown", "value").

(** ** Walking the tree *)

Definition component_id (c : Component) : option string :=
  match c with
  | Html _ id _ _ _ => id
  | Dropdown id _ _ => Some id
  | Graph id _ _ _ => Some id
  end.

(** Every component of the tree, parents before children, in document
    order. *)
Fixpoint components (c : Component) : list Component :=
  c :: match c with
       | Html _ _ _ _ (Nodes cs) => flat_map components cs
       | _ => []
       end.

Definition option_to_list {A : Type} (o : option A) : list A :=
  match o with
  | Some a => [a]
  | None => []
  end.

Definition component_ids (c : Component) : list string :=
  flat_map (fun d => option_to_list (component_id d)) (components c).

Definition find_component (id : string) (c : Component) : option Component :=
  find (fun d => match component_id d with
                 | Some i => String.eqb i id
                 | None => false
                 end) (components c).

Definition dropdown_options (c : Component) : list (string * string) :=
  flat_map (fun d => match d with
                     | Dropdown _ options _ => options
                     | _ => []
                     end) (components c).

(** What a callback property needs of the component it names: [figure] a
    graph, [value] a dropdown, [children] an element the layout leaves
    empty. *)
Definition accepts (c : Component) (property : string) : Prop :=
  match c with
  | Graph _ _ _ _ => property = "figure"
  | Dropdown _ _ _ => property = "value"
  | Html _ _ _ _ NoChildren => property = "children"
  | Html _ _ _ _ _ => False
  end.

Definition wired (listings : DataFrame) (target : string * string) : Prop :=
  match find_component (fst target) (layout_of listings) with
  | Some c => accepts c (snd target)
  | None => False
  end.

Lemma layout_ids (listings : DataFrame) :
  component_ids (layout_of listings)
  = [ "map"; "nbh_dropdown"; "num_listings"; "perc_listings"; "hist";
      "ent_home_perc"; "price_night"; "est_nights_year";
      "reviews_listings_month"; "number_of_reviews"; "est_occupancy";
      "estimated_income_month" ].
Proof. reflexivity. Qed.

(** Whatever the table, the component ids of the layout are pairwise
    distinct, they are exactly the ids the callback names, and each output or
    input of the callback names a component of the matching kind: the two
    figures are graphs, the input is the dropdown, the nine texts are
    elements without children of their own. *)
Theorem callback_wired_to_layout (listings : DataFrame) :
  NoDup (component_ids (layout_of listings))
  /\ (forall id, In id (component_ids (layout_of listings))
                 <-> In id (map fst (callback_input :: callback_outputs)))
  /\ Forall (wired listings) (callback_input :: callback_outputs).
Proof.
  rewrite layout_ids. split; [|split].
  - repeat (constructor; [simpl; intuition discriminate|]). constructor.
  - intros id. simpl. tauto.
  - repeat constructor.
Qed.

(** Every option of the dropdown of the layout has its label as value, names
    the neighbourhood of some row, and can be selected without the update
    dividing by zero: the subset it selects is not empty. *)
Theorem offered_values_select_rows (listings : DataFrame) (label value : string) :
  In (label, value) (dropdown_options (layout_of listings)) ->
  label = value
  /\ (exists row, In row listings /\ neighbourhood_cleansed row = value)
  /\ dff listings (Some value) <> []
  /\ update_num_listings listings (Some value) <> Raise ZeroDivisionError.
Proof.
  intros Hin.
  assert (Hopt : dropdown_options (layout_of listings)
                 = map (fun nbh => (nbh, nbh)) (neighbourhoods listings)).
  { unfold dropdown_options. cbn. apply app_nil_r. }
  rewrite Hopt in Hin. apply in_map_iff in Hin.
  destruct Hin as (nbh & Heq & Hnbh). injection Heq as <- <-.
  split; [reflexivity|].
  assert (Hrow : exists row, In row listings /\ neighbourhood_cleansed row = nbh).
  { unfold neighbourhoods in Hnbh. rewrite unique_In, in_map_iff in Hnbh.
    destruct Hnbh as (row & H1 & H2). now exists row. }
  split; [exact Hrow|].
  assert (Hne : dff listings (Some nbh) <> []).
  { destruct Hrow as (row & Hr & Hl). intros Hnil.
    assert (H : In row (dff listings (Some nbh))) by (simpl; now apply where_eq_In).
    rewrite Hnil in H. destruct H. }
  split; [exact Hne|].
  destruct (update_num_listings_cases listings (Some nbh))
    as [(He & _)|[(_ & _ & Hu)|(_ & _ & (o & Hu))]]; congruence.
Qed.

Lemma offered_values_select_rows_witness :
  In ("Castello", "Castello") (dropdown_options (layout_of three_at_100))
  /\ dff three_at_100 (Some "Castello") <> []
  /\ update_num_listings three_at_100 (Some "Castello") <> Raise ZeroDivisionError.
Proof.
  assert (H : In ("Castello", "Castello")
                 (dropdown_options (layout_of three_at_100))).
  { cbn. right. left. reflexivity. }
  split; [exact H|].
  exact (proj2 (proj2 (offered_values_select_rows three_at_100 _ _ H))).
Defined.

(** The figures and the table size the layout shows at start-up are the ones
    the callback publishes for the cleared dropdown: when that first update
    succeeds it replaces the histogram, the map and the listing count by
    themselves. *)
Theorem initial_view_matches_unfiltered_update (listings : DataFrame) (o : Outputs) :
  update_num_listings listings None = Ok o ->
  find_component "hist" (layout_of listings)
  = Some (Graph "hist" (HistFig (o_hist o)) [("displayModeBar", false)]
                [("width", "60%")])
  /\ find_component "map" (layout_of listings)
     = Some (Graph "map" (MapFig (o_map o)) [] [])
  /\ In (Html "p" None None []
              (Text ("out of " ++ str_of_nat (o_num_listings o) ++ " listings")))
        (components (layout_of listings)).
Proof.
  intros Ho.
  destruct (update_num_listings_Ok _ _ _ Ho) as (p & perc & ent & _ & _ & _ & ->).
  cbn [o_hist o_map o_num_listings dff].
  split; [reflexivity|]. split; [reflexivity|].
  cbn. do 14 right. left. reflexivity.
Qed.

Lemma initial_view_matches_unfiltered_update_witness :
  exists o, update_num_listings three_at_100 None = Ok o
            /\ find_component "map" (layout_of three_at_100)
               = Some (Graph "map" (MapFig (o_map o)) [] []).
Proof.
  eexists. split; [reflexivity|].
  exact (proj1 (proj2 (initial_view_matches_unfiltered_update
                         three_at_100 _ eq_refl))).
Defined.

(** The side panel is its filter header followed by exactly the components
    the helpers [room_type] and [activity] build. *)
Theorem side_panel_inlines_helpers (listings : DataFrame) :
  exists filter_header,
    side_panel listings
    = Html "div" None (Some "sidePanel") []
           (Nodes (filter_header :: room_type_panel listings ++ activity))
    /\ component_ids filter_header
       = ["nbh_dropdown"; "num_listings"; "perc_listings"].
Proof. eexists. split; reflexivity. Qed.

(** * Subsets without reviews or without prices *)

Lemma products_without_reviews (df : DataFrame) :
  (forall row, In row df -> reviews_per_month row = NaN) ->
  dropna (mul_columns (map minimum_nights_avg_ntm df) (map reviews_per_month df))
  = []
  /\ dropna (map reviews_per_month df) = [].
Proof.
  unfold mul_columns, dropna.
  induction df as [|row rest IH]; intros Hall; [split; reflexivity|].
  destruct IH as [IH1 IH2]; [intros r Hr; apply Hall; now right|].
  cbn [map combine filter fst snd].
  rewrite (Hall row (or_introl eq_refl)), fmul_nan_r. cbn [isna negb].
  split; assumption.
Qed.

(** When no listing of the subset has a reviews-per-month value, a successful
    update publishes "nan" for the estimated nights, "nan%" for the occupancy,
    "$nan" for the income and "nan" for the reviews per listing and month. *)
Theorem no_reviews_publishes_nan
        (listings : DataFrame) (nbh_cleansed : option string) (o : Outputs) :
  update_num_listings listings nbh_cleansed = Ok o ->
  (forall row, In row (dff listings nbh_cleansed) -> reviews_per_month row = NaN) ->
  o_est_nights_year o = "nan"
  /\ o_est_occupancy o = "nan%"
  /\ o_estimated_income_month o = "$nan"
  /\ o_reviews_listings_month o = "nan".
Proof.
  intros Ho Hall.
  destruct (update_num_listings_Ok _ _ _ Ho) as (p & perc & ent & _ & _ & _ & ->).
  destruct (products_without_reviews _ Hall) as [Hprod Hrev].
  assert (Hn : est_nights_year (dff listings nbh_cleansed) = NaN).
  { unfold est_nights_year. rewrite Hprod. reflexivity. }
  cbn [o_est_nights_year o_est_occupancy o_estimated_income_month
       o_reviews_listings_month].
  unfold est_occupancy, estimated_income_month.
  rewrite Hn, Hrev, fmul_nan_r. repeat split; reflexivity.
Qed.

Definition never_reviewed : DataFrame := [entire_second].

Lemma no_reviews_publishes_nan_witness :
  exists o, update_num_listings never_reviewed None = Ok o
            /\ o_est_nights_year o = "nan"
            /\ o_est_occupancy o = "nan%"
            /\ o_estimated_income_month o = "$nan"
            /\ o_reviews_listings_month o = "nan".
Proof.
  eexists. split; [reflexivity|].
  apply (no_reviews_publishes_nan never_reviewed None _ eq_refl).
  intros row Hrow. simpl in Hrow. destruct Hrow as [<-|[]]. reflexivity.
Defined.

Lemma filter_none_left (df : DataFrame) :
  (forall row, In row df -> reads_as_missing row = true) ->
  filter (fun row => negb (reads_as_missing row)) df = [].
Proof.
  induction df as [|row rest IH]; intros Hall; [reflexivity|].
  cbn [filter]. rewrite (Hall row (or_introl eq_refl)). cbn [negb].
  apply IH. intros r Hr. apply Hall. now right.
Qed.

(** When every price cell of the subset is missing or cleaned to the empty
    string, a successful update publishes "$nan" for the price and for the
    income. *)
Theorem no_prices_publishes_nan
        (listings : DataFrame) (nbh_cleansed : option string) (o : Outputs) :
  update_num_listings listings nbh_cleansed = Ok o ->
  (forall row, In row (dff listings nbh_cleansed) -> reads_as_missing row = true) ->
  o_price_night o = "$nan" /\ o_estimated_income_month o = "$nan".
Proof.
  intros Ho Hall.
  destruct (update_num_listings_Ok _ _ _ Ho) as (p & perc & ent & Hp & _ & _ & ->).
  pose proof (filter_none_left _ Hall) as Hnone.
  pose proof (to_numeric_skips_missing (dff listings nbh_cleansed)) as Hskip.
  rewrite Hnone in Hskip. unfold price_night in Hp.
  fold (price_cells (dff listings nbh_cleansed)) in Hp.
  destruct (to_numeric (price_cells (dff listings nbh_cleansed))) as [a|e];
    [|discriminate].
  cbn in Hskip. cbn [bind] in Hp. injection Hp as <-.
  assert (Hmean : mean a = NaN) by (unfold mean; now rewrite Hskip).
  cbn [o_price_night o_estimated_income_month]. unfold estimated_income_month.
  rewrite Hmean. split; reflexivity.
Qed.

Definition free_stay : DataFrame :=
  [ sample_row "A" "Cannaregio" "Entire home/apt" "$0.00" ].

Lemma no_prices_publishes_nan_witness :
  exists o, update_num_listings free_stay None = Ok o
            /\ o_price_night o = "$nan"
            /\ o_estimated_income_month o = "$nan".
Proof.
  eexists. split; [reflexivity|].
  apply (no_prices_publishes_nan free_stay None _ eq_refl).
  intros row Hrow. simpl in Hrow. destruct Hrow as [<-|[]]. reflexivity.
Defined.
